(** * scripts/setup_glad.py: the GLAD bootstrap script of Nilos Engine

    A shallow embedding of the script and the properties of its control
    flow.  The script probes the file system, may prompt the user, imports
    a package, and runs up to two child processes; what these collaborators
    answer is the environment [Env] of a run, the file system is threaded
    through the run, and every print, prompt, import and child process is
    recorded in a trace. *)

From Stdlib Require Import String Ascii List ZArith Bool Lia DecimalString.
Import ListNotations.
Local Open Scope string_scope.
Local Open Scope Z_scope.

(** ** Python strings

    A Python [str] is modelled by its UTF-8 encoding, as in the source file
    itself.  [strip] and [lower] are the two [str] methods the script uses. *)
Module Str.

Definition nl : string := String "010"%char EmptyString.

Definition utf8 (bytes : list nat) : string :=
  string_of_list_ascii (map ascii_of_nat bytes).

Definition rev (s : string) : string :=
  string_of_list_ascii (List.rev (list_ascii_of_string s)).

(** [s * n] *)
Fixpoint mul (s : string) (n : nat) : string :=
  match n with
  | O => EmptyString
  | S n' => s ++ mul s n'
  end.

(** The code points for which [str.isspace] holds, UTF-8 encoded:
    U+0009..U+000D, U+001C..U+0020, U+0085, U+00A0, U+1680,
    U+2000..U+200A, U+2028, U+2029, U+202F, U+205F, U+3000. *)
Definition whitespace : list string :=
  map utf8
    [ [9]; [10]; [11]; [12]; [13]; [28]; [29]; [30]; [31]; [32];
      [194; 133]; [194; 160]; [225; 154; 128];
      [226; 128; 128]; [226; 128; 129]; [226; 128; 130]; [226; 128; 131];
      [226; 128; 132]; [226; 128; 133]; [226; 128; 134]; [226; 128; 135];
      [226; 128; 136]; [226; 128; 137]; [226; 128; 138];
      [226; 128; 168]; [226; 128; 169]; [226; 128; 175];
      [226; 129; 159]; [227; 128; 128] ]%nat.

(** [after p s] is what follows [p] in [s] when [s] starts with [p]. *)
Fixpoint after (p s : string) : option string :=
  match p, s with
  | EmptyString, _ => Some s
  | String a p', String b s' => if Ascii.eqb a b then after p' s' else None
  | String _ _, EmptyString => None
  end.

(** What follows the first of [chars] that [s] starts with. *)
Fixpoint behead (chars : list string) (s : string) : option string :=
  match chars with
  | [] => None
  | c :: chars' =>
      match after c s with
      | Some s' => Some s'
      | None => behead chars' s
      end
  end.

Fixpoint lstrip_chars (fuel : nat) (chars : list string) (s : string) : string :=
  match fuel with
  | O => s
  | S fuel' =>
      match behead chars s with
      | Some s' => lstrip_chars fuel' chars s'
      | None => s
      end
  end.

Definition lstrip (s : string) : string :=
  lstrip_chars (String.length s) whitespace s.

(** Stripping on the right is stripping the reversed string of the
    reversed characters: UTF-8 is read unambiguously from either end. *)
Definition rstrip (s : string) : string :=
  rev (lstrip_chars (String.length s) (map rev whitespace) (rev s)).

(** [s.strip()] *)
Definition strip (s : string) : string := rstrip (lstrip s).

Definition lower_ascii (c : ascii) : ascii :=
  let n := nat_of_ascii c in
  if (65 <=? n)%nat && (n <=? 90)%nat then ascii_of_nat (n + 32) else c.

(** [s.lower()].  Bytes of code points outside ASCII are left as they
    are: Python lower-cases those as well, but U+0059 is the only code
    point other than U+0079 whose lower case holds "y", and the script
    only compares the result with "y". *)
Fixpoint lower (s : string) : string :=
  match s with
  | EmptyString => EmptyString
  | String c s' => String (lower_ascii c) (lower s')
  end.

(** [str(n)] of an [int] *)
Definition of_Z (z : Z) : string := NilZero.string_of_int (Z.to_int z).

End Str.

(** ** os.path (posixpath) and the file system *)

(** The file system, as far as the script looks at it: the paths that
    exist, relative to the working directory of the run. *)
Definition FS := list string.

Module os_path.

Definition sep : string := "/".

Definition startswith (p s : string) : bool := String.prefix p s.

Definition endswith (p s : string) : bool :=
  String.prefix (Str.rev p) (Str.rev s).

(** [posixpath.join(a, *p)] *)
Fixpoint join (a : string) (p : list string) : string :=
  match p with
  | [] => a
  | b :: p' =>
      if startswith sep b then join b p'
      else if String.eqb a EmptyString || endswith sep a then join (a ++ b) p'
      else join (a ++ sep ++ b) p'
  end.

(** [os.path.exists(path)] *)
Definition exists_ (path : string) (fs : FS) : bool :=
  existsb (String.eqb path) fs.

End os_path.

(** ** Exceptions *)

Inductive exn : Type :=
| KeyboardInterrupt
| SystemExit (code : Z)
| EOFError
| ImportError (msg : string)
| CalledProcessError (returncode : Z) (cmd : list string)
| OtherException (msg : string).  (* any other subclass of Exception: OSError, ... *)

(** The class tests of the [except] clauses.  [KeyboardInterrupt] and
    [SystemExit] derive from [BaseException], not from [Exception]. *)
Definition is_KeyboardInterrupt (e : exn) : bool :=
  match e with KeyboardInterrupt => true | _ => false end.

Definition is_ImportError (e : exn) : bool :=
  match e with ImportError _ => true | _ => false end.

Definition is_CalledProcessError (e : exn) : bool :=
  match e with CalledProcessError _ _ => true | _ => false end.

Definition is_Exception (e : exn) : bool :=
  match e with KeyboardInterrupt | SystemExit _ => false | _ => true end.

(** ** The environment of a run *)

(** How a collaborator fails other than in the way the script handles:
    the user interrupts it, or it raises some other [Exception]. *)
Inductive fault : Type :=
| Interrupt
| Error (msg : string).

Definition exn_of_fault (f : fault) : exn :=
  match f with
  | Interrupt => KeyboardInterrupt
  | Error msg => OtherException msg
  end.

(** [input()]: a line without its newline, end of file, or a fault. *)
Inductive input_result : Type :=
| Line (s : string)
| EndOfFile
| InputFault (f : fault).

(** [import m]: the module is there, it is not, or importing it faults. *)
Inductive import_result : Type :=
| Imported
| NotFound (msg : string)
| ImportFault (f : fault).

(** [subprocess.call(argv)]: the exit status of the child, or a fault
    (the child could not be started, the user interrupted the wait). *)
Inductive call_result : Type :=
| Returned (code : Z)
| CallFault (f : fault).

Record Env : Type := {
  sys_executable : string;
  (** what the call of [input()] meets *)
  stdin : input_result;
  (** what [import name] meets *)
  import_module : string -> import_result;
  (** what running [argv] in a file system gives, and leaves *)
  spawn : list string -> FS -> call_result * FS;
  (** [str(e)] of a [CalledProcessError] *)
  str_CalledProcessError : Z -> list string -> string
}.

(** [str(e)] *)
Definition str (env : Env) (e : exn) : string :=
  match e with
  | KeyboardInterrupt => EmptyString
  | SystemExit code => Str.of_Z code
  | EOFError => "EOF when reading a line"
  | ImportError msg => msg
  | CalledProcessError returncode cmd => str_CalledProcessError env returncode cmd
  | OtherException msg => msg
  end.

(** ** Traces and the monad of the script *)

Inductive event : Type :=
| Print (s : string)           (* print(s) *)
| Prompt (s : string)          (* input(s) writes s, then reads *)
| Import (name : string)       (* import name *)
| Spawn (argv : list string).  (* a child process is started *)

Record State : Type := { fs : FS; trace : list event }.

Inductive res (A : Type) : Type :=
| Val (a : A)
| Exc (e : exn).
Arguments Val {A} a.
Arguments Exc {A} e.

Definition M (A : Type) : Type := State -> res A * State.

Definition ret {A} (a : A) : M A := fun st => (Val a, st).

Definition raise {A} (e : exn) : M A := fun st => (Exc e, st).

Definition bind {A B} (c : M A) (k : A -> M B) : M B :=
  fun st =>
    match c st with
    | (Val a, st') => k a st'
    | (Exc e, st') => (Exc e, st')
    end.

Declare Scope py_scope.
Delimit Scope py_scope with py.
Notation "x <- c ;; k" := (bind c (fun x => k))
  (at level 100, c at next level, right associativity) : py_scope.
Notation "c ;; k" := (bind c (fun _ => k))
  (at level 100, right associativity) : py_scope.
Local Open Scope py_scope.

Definition emit (ev : event) : M unit :=
  fun st => (Val tt, {| fs := fs st; trace := trace st ++ [ev] |}).

(** An [except] clause: the class it catches and its body. *)
Definition clause (A : Type) : Type := (exn -> bool) * (exn -> M A).

(** The first clause whose class the exception is an instance of runs;
    with none, the exception goes on. *)
Fixpoint dispatch {A} (clauses : list (clause A)) (e : exn) : M A :=
  match clauses with
  | [] => raise e
  | (cls, handler) :: clauses' =>
      if cls e then handler e else dispatch clauses' e
  end.

(** [try: body except ...]; an exception raised in a handler is not
    caught by the clauses of the same [try]. *)
Definition try {A} (body : M A) (clauses : list (clause A)) : M A :=
  fun st =>
    match body st with
    | (Val a, st') => (Val a, st')
    | (Exc e, st') => dispatch clauses e st'
    end.

(** ** The primitives the script calls *)

(** [print(s)]: the line goes to standard output; writing it is taken
    to succeed. *)
Definition print (s : string) : M unit := emit (Print s).

(** [os.path.exists(path)], [input(prompt)] and [import name]. *)

Definition os_path_exists (path : string) : M bool :=
  fun st => (Val (os_path.exists_ path (fs st)), st).

Definition input (env : Env) (prompt : string) : M string :=
  emit (Prompt prompt) ;;
  match stdin env with
  | Line s => ret s
  | EndOfFile => raise EOFError
  | InputFault f => raise (exn_of_fault f)
  end.

Definition import (env : Env) (name : string) : M unit :=
  emit (Import name) ;;
  match import_module env name with
  | Imported => ret tt
  | NotFound msg => raise (ImportError msg)
  | ImportFault f => raise (exn_of_fault f)
  end.

(** [subprocess.call(cmd)] *)
Definition subprocess_call (env : Env) (cmd : list string) : M Z :=
  emit (Spawn cmd) ;;
  fun st =>
    let (r, fs') := spawn env cmd (fs st) in
    let st' := {| fs := fs'; trace := trace st |} in
    match r with
    | Returned code => (Val code, st')
    | CallFault f => (Exc (exn_of_fault f), st')
    end.

(** [subprocess.check_call(cmd)] *)
Definition subprocess_check_call (env : Env) (cmd : list string) : M Z :=
  retcode <- subprocess_call env cmd ;;
  if negb (retcode =? 0) then raise (CalledProcessError retcode cmd)
  else ret 0.

(** [sys.exit(code)] *)
Definition sys_exit {A} (code : Z) : M A := raise (SystemExit code).

(** ** The script *)

(** What a Python function hands back: [None] or an [int]. *)
Inductive pyval : Type :=
| PyNone
| PyInt (z : Z).

(** How a block inside a function body ends: control goes on to the next
    statement, or the function returns. *)
Inductive flow : Type :=
| Next
| Return (v : pyval).

Definition glad_path : string := os_path.join "external" ["glad"].

Definition glad_header : string :=
  os_path.join glad_path ["include"; "glad"; "glad.h"].

(** The installer command of line 43. *)
Definition pip_cmd (env : Env) : list string :=
  [sys_executable env; "-m"; "pip"; "install"; "glad"].

(** The generator command of lines 57-63. *)
Definition glad_cmd (env : Env) : list string :=
  [sys_executable env; "-m"; "glad";
   "--generator"; "c";
   "--spec"; "gl";
   "--out-path"; glad_path;
   "--api"; "gl=3.3"].

Definition cancelled_msg : string :=
  Str.nl ++ Str.nl ++ "Setup cancelled by user.".

Definition generate_failed_msg (env : Env) (e : exn) : string :=
  "❌ Failed to generate GLAD: " ++ str env e.

Definition unexpected_msg (env : Env) (e : exn) : string :=
  Str.nl ++ "❌ Unexpected error: " ++ str env e.

(** [main()], lines 16-82. *)
Definition main (env : Env) : M pyval :=
  print (Str.mul "=" 60) ;;
  print "Nilos Engine - GLAD Setup Script" ;;
  print (Str.mul "=" 60) ;;
  print EmptyString ;;
  (* lines 26-33 *)
  found <- os_path_exists glad_header ;;
  k <- (if found then
          print "✅ GLAD is already set up!" ;;
          print ("   Found: " ++ glad_header) ;;
          line <- input env (Str.nl ++ "Do you want to regenerate GLAD? (y/N): ") ;;
          let response := Str.lower (Str.strip line) in
          if negb (String.eqb response "y") then
            print "Keeping existing GLAD setup." ;;
            ret (Return PyNone)
          else
            print EmptyString ;;
            ret Next
        else ret Next) ;;
  match k with
  | Return v => ret v
  | Next =>
  (* lines 36-49 *)
  k <- try (import env "glad" ;;
            print "✅ GLAD Python package found" ;;
            ret Next)
         [(is_ImportError, fun _ =>
             print "⚠️  GLAD Python package not found" ;;
             print "   Installing glad..." ;;
             try (subprocess_check_call env (pip_cmd env) ;;
                  print "✅ GLAD Python package installed" ;;
                  ret Next)
               [(is_CalledProcessError, fun _ =>
                   print "❌ Failed to install GLAD package" ;;
                   print (Str.nl ++ "Please install manually:") ;;
                   print "   pip install glad" ;;
                   ret (Return (PyInt 1)))])] ;;
  match k with
  | Return v => ret v
  | Next =>
  (* lines 51-82 *)
  print EmptyString ;;
  print "Generating GLAD files for OpenGL 3.3 Core..." ;;
  print EmptyString ;;
  k <- try (subprocess_check_call env (glad_cmd env) ;;
            print EmptyString ;;
            print "✅ GLAD generated successfully!" ;;
            print EmptyString ;;
            print "Generated files:" ;;
            print ("   - " ++ os_path.join glad_path ["include"; "glad"; "glad.h"]) ;;
            print ("   - " ++ os_path.join glad_path ["include"; "KHR"; "khrplatform.h"]) ;;
            print ("   - " ++ os_path.join glad_path ["src"; "glad.c"]) ;;
            print EmptyString ;;
            print "✅ Setup complete! You can now build the project." ;;
            ret Next)
         [(is_CalledProcessError, fun e =>
             print (generate_failed_msg env e) ;;
             print EmptyString ;;
             print "Alternative: Download manually from https://glad.dav1d.de/" ;;
             ret (Return (PyInt 1)))] ;;
  match k with
  | Return v => ret v
  | Next => ret (PyInt 0)
  end end end.

(** The [if __name__ == "__main__":] block, lines 84-93. *)
Definition script (env : Env) : M unit :=
  try (exit_code <- main env ;;
       sys_exit (match exit_code with PyNone => 0 | PyInt z => z end))
    [(is_KeyboardInterrupt, fun _ =>
        print cancelled_msg ;;
        sys_exit 1);
     (is_Exception, fun e =>
        print (unexpected_msg env e) ;;
        sys_exit 1)].

(** ** The interpreter running the script *)

Record Process : Type := {
  exit_status : Z;
  (** what the run did, in order *)
  events : list event;
  (** the exception whose traceback the interpreter writes, if any *)
  traceback : option exn;
  (** the file system the run leaves *)
  files : FS
}.

(** A [SystemExit] ends the process with its code; any other exception
    that reaches the interpreter is written out with its traceback and
    the status is 1; falling off the end of the script gives 0. *)
Definition python (env : Env) (fs0 : FS) : Process :=
  match script env {| fs := fs0; trace := [] |} with
  | (Val _, st) =>
      {| exit_status := 0; events := trace st; traceback := None; files := fs st |}
  | (Exc (SystemExit code), st) =>
      {| exit_status := code; events := trace st; traceback := None; files := fs st |}
  | (Exc e, st) =>
      {| exit_status := 1; events := trace st; traceback := Some e; files := fs st |}
  end.

(** Two runs in succession: the second starts in the file system the
    first leaves. *)
Definition python_twice (env1 env2 : Env) (fs0 : FS) : Process * Process :=
  let p1 := python env1 fs0 in
  (p1, python env2 (files p1)).

(** ** Reading traces *)

Definition printed (s : string) (t : list event) : Prop := In (Print s) t.

(** The commands of the child processes started, in order. *)
Fixpoint spawned (t : list event) : list (list string) :=
  match t with
  | [] => []
  | Spawn argv :: t' => argv :: spawned t'
  | _ :: t' => spawned t'
  end.

(** The modules whose import was attempted, in order. *)
Fixpoint imports (t : list event) : list string :=
  match t with
  | [] => []
  | Import name :: t' => name :: imports t'
  | _ :: t' => imports t'
  end.

(** ** Runs *)

(** The state a run starts in. *)
Definition start (fs0 : FS) : State := {| fs := fs0; trace := [] |}.

(** The run gets past lines 26-33: there is no header, or there is one
    and the user's answer is taken as a yes. *)
Inductive regenerates (env : Env) (fs0 : FS) : Prop :=
| no_header :
    os_path.exists_ glad_header fs0 = false ->
    regenerates env fs0
| affirmed (s : string) :
    os_path.exists_ glad_header fs0 = true ->
    stdin env = Line s ->
    Str.lower (Str.strip s) = "y" ->
    regenerates env fs0.

(** The run gets to the generation step of lines 51-65, in the file
    system [fs1]: the package was there, or the installer put it there. *)
Inductive generates (env : Env) (fs0 : FS) : FS -> Prop :=
| package_found :
    regenerates env fs0 ->
    import_module env "glad" = Imported ->
    generates env fs0 fs0
| package_installed (msg : string) (fs1 : FS) :
    regenerates env fs0 ->
    import_module env "glad" = NotFound msg ->
    spawn env (pip_cmd env) fs0 = (Returned 0, fs1) ->
    generates env fs0 fs1.

(** A user interrupt comes while the run waits at one of its three
    blocking points: the prompt, the installer, the generator. *)
Inductive interrupted (env : Env) (fs0 : FS) : Prop :=
| at_prompt :
    os_path.exists_ glad_header fs0 = true ->
    stdin env = InputFault Interrupt ->
    interrupted env fs0
| at_installer (msg : string) (fs1 : FS) :
    regenerates env fs0 ->
    import_module env "glad" = NotFound msg ->
    spawn env (pip_cmd env) fs0 = (CallFault Interrupt, fs1) ->
    interrupted env fs0
| at_generator (fs1 fs2 : FS) :
    generates env fs0 fs1 ->
    spawn env (glad_cmd env) fs1 = (CallFault Interrupt, fs2) ->
    interrupted env fs0.

(** The last event of a trace. *)
Definition final (t : list event) : option event :=
  List.last (map Some t) None.

(** The prints of lines 17-20. *)
Definition banner : list event :=
  [Print "============================================================";
   Print "Nilos Engine - GLAD Setup Script";
   Print "============================================================";
   Print EmptyString].

(** The prints and the prompt of lines 27-33 when the user says yes. *)
Definition asked : list event :=
  [Print "✅ GLAD is already set up!";
   Print "   Found: external/glad/include/glad/glad.h";
   Prompt (Str.nl ++ "Do you want to regenerate GLAD? (y/N): ");
   Print EmptyString].

(** *** Concrete environments *)

Definition header_fs : FS := ["external/glad/include/glad/glad.h"].

(** A child process that exits with [code] and leaves the file system
    as it was. *)
Definition child_exits (code : Z) : list string -> FS -> call_result * FS :=
  fun _ fs0 => (Returned code, fs0).

Definition render_CalledProcessError (returncode : Z) (cmd : list string) : string :=
  "Command '" ++ String.concat " " cmd ++ "' returned non-zero exit status "
    ++ Str.of_Z returncode ++ ".".

Definition mk_env (answer : input_result) (package : import_result)
    (processes : list string -> FS -> call_result * FS) : Env :=
  {| sys_executable := "/usr/bin/python3";
     stdin := answer;
     import_module := fun _ => package;
     spawn := processes;
     str_CalledProcessError := render_CalledProcessError |}.

(** The installer exits with [pip], the generator with [glad]. *)
Definition children (pip glad : call_result) : list string -> FS -> call_result * FS :=
  fun argv fs0 =>
    match argv with
    | [_; _; "pip"; _; _] => (pip, fs0)
    | _ => (glad, fs0)
    end.

Definition no_module : import_result := NotFound "No module named 'glad'".

(** No header, the package there, a generator that exits with 0 and
    leaves the header. *)
Definition fresh_env : Env :=
  mk_env EndOfFile Imported (fun _ _ => (Returned 0, header_fs)).

(** The user answers [s]; the package is missing, and the installer and
    the generator exit with 0. *)
Definition answering (s : string) : Env :=
  mk_env (Line s) no_module (child_exits 0).

(** The package is missing, the installer exits with [pip] and the
    generator with [glad]. *)
Definition failing_env (pip glad : Z) : Env :=
  mk_env EndOfFile no_module (children (Returned pip) (Returned glad)).



(** ** More ways to read a run *)

(** The text of the prompt of line 29. *)
Definition prompt_text : string :=
  Str.nl ++ "Do you want to regenerate GLAD? (y/N): ".

(** The prompts shown, in order. *)
Fixpoint prompts (t : list event) : list string :=
  match t with
  | [] => []
  | Prompt s :: t' => s :: prompts t'
  | _ :: t' => prompts t'
  end.

(** The run ends at line 32: there is a header and the user's answer is
    not taken as a yes. *)
Inductive declined (env : Env) (fs0 : FS) : Prop :=
| answered_no (s : string) :
    os_path.exists_ glad_header fs0 = true ->
    stdin env = Line s ->
    Str.lower (Str.strip s) <> "y" ->
    declined env fs0.


(** The package is missing and the installer cannot be started. *)
Definition no_installer_env : Env :=
  mk_env EndOfFile no_module
    (children (CallFault (Error "[Errno 2] No such file or directory")) (Returned 0)).

(** The package is there and the generator cannot be started. *)
Definition no_generator_env : Env :=
  mk_env EndOfFile Imported
    (children (Returned 0) (CallFault (Error "[Errno 2] No such file or directory"))).


(** * Properties *)

(** ** Running the script symbolically *)

(** Unfolding the script and its primitives, and nothing of the
    environment. *)
Ltac exec :=
  cbv beta iota zeta delta
    [python python_twice script main start try dispatch bind ret raise emit print
     os_path_exists input import subprocess_call subprocess_check_call
     sys_exit fs trace fst snd exit_status events traceback files
     is_KeyboardInterrupt is_ImportError is_CalledProcessError is_Exception
     exn_of_fault negb app].

(** The child exited with 0, or with a status known not to be 0. *)
Ltac exit_zero := change (0 =? 0) with true; exec.
Ltac exit_nonzero H := rewrite (proj2 (Z.eqb_neq _ 0) H); exec.

(** A print that is in a trace that has been computed. *)
Ltac in_trace :=
  unfold printed; cbn; repeat first [left; reflexivity | right].

(** Both ways past the prompt. *)
Ltac use_regenerates H :=
  let s := fresh "s" in
  let Hex := fresh "Hex" in
  let Hin := fresh "Hin" in
  let Hy := fresh "Hy" in
  destruct H as [Hex | s Hex Hin Hy];
  exec; rewrite Hex; exec;
  [ | rewrite Hin; exec; rewrite Hy; change (String.eqb "y" "y") with true; exec ].

(** Both ways to the generation step. *)
Ltac use_generates H :=
  let Hre := fresh "Hre" in
  let Him := fresh "Him" in
  let Hpip := fresh "Hpip" in
  destruct H as [Hre Him | msg fs1 Hre Him Hpip];
  use_regenerates Hre; rewrite Him; exec;
  try (rewrite Hpip; exec; exit_zero).

(** The text of a generation failure is no other text the script prints. *)
Ltac not_in_trace :=
  let e := fresh "e" in
  let H := fresh "H" in
  unfold printed, generate_failed_msg; cbn; intros e H;
  repeat (destruct H as [H | H]; [discriminate H |]); exact H.

(** Every answer the environment can give, one collaborator at a time. *)
Ltac case_env :=
  repeat (exec;
    match goal with
    | |- context [os_path.exists_ ?p ?f] => destruct (os_path.exists_ p f)
    | |- context [stdin ?E] => destruct (stdin E) as [? | | [| ?]]
    | |- context [String.eqb (Str.lower (Str.strip ?s)) "y"] =>
        destruct (String.eqb (Str.lower (Str.strip s)) "y")
    | |- context [import_module ?E ?n] =>
        destruct (import_module E n) as [| ? | [| ?]]
    | |- context [spawn ?E ?c ?f] => destruct (spawn E c f) as [[? | [| ?]] ?]
    | |- context [Z.eqb ?c 0] => destruct (Z.eqb c 0)
    end).

(** The same, keeping what each answer was. *)
Ltac case_env_eqn :=
  repeat (exec;
    match goal with
    | |- context [os_path.exists_ ?p ?f] => destruct (os_path.exists_ p f) eqn:?
    | |- context [stdin ?E] => destruct (stdin E) as [? | | [| ?]] eqn:?
    | |- context [String.eqb (Str.lower (Str.strip ?s)) "y"] =>
        destruct (String.eqb_spec (Str.lower (Str.strip s)) "y")
    | |- context [import_module ?E ?n] =>
        destruct (import_module E n) as [| ? | [| ?]] eqn:?
    | |- context [spawn ?E ?c ?f] =>
        destruct (spawn E c f) as [[? | [| ?]] ?] eqn:?
    | |- context [Z.eqb ?c 0] => destruct (Z.eqb_spec c 0); [subst c |]
    end).

(** Both runs at once, where the children exit alike in the two file
    systems. *)
Ltac case_both Hagree :=
  repeat (exec;
    match goal with
    | |- context [import_module ?E ?n] =>
        destruct (import_module E n) as [| ? | [| ?]]
    | |- context [spawn ?E ?c ?fa] =>
        match goal with
        | |- context [spawn E c ?fb] =>
            assert_fails (constr_eq fa fb);
            let A := fresh "A" in
            pose proof (Hagree c fa fb) as A;
            destruct (spawn E c fa) as [[? | [| ?]] ?];
            destruct (spawn E c fb) as [[? | [| ?]] ?];
            cbn [fst] in A;
            try discriminate A;
            try (injection A as ->)
        end
    | |- context [Z.eqb ?c 0] => destruct (Z.eqb c 0)
    end).

(** Evidence for [regenerates] and [generates] from what the case
    analysis kept. *)
Ltac regenerating :=
  first [ apply no_header; assumption | eapply affirmed; eassumption ].

Ltac generating :=
  first [ apply package_found; [regenerating | assumption]
        | eapply package_installed; [regenerating | eassumption | eassumption] ].

(** No print of a trace that has been computed is the given one. *)
Ltac no_such_print :=
  let H := fresh "H" in
  unfold printed; cbn; intros H;
  repeat (destruct H as [H | H]; [discriminate H |]); exact H.

(** ** [strip] runs to the end

    The fuel of [lstrip_chars] is the length of the string, and every
    character removed is at least a byte: what [lstrip] and [rstrip] give
    back starts, respectively ends, with no whitespace character. *)
Module StrFacts.
Import Str.

Lemma after_length p s s' :
  after p s = Some s' ->
  (String.length p + String.length s' = String.length s)%nat.
Proof.
  revert s. induction p as [| a p IH]; intros [| b s] H; simpl in *;
    try discriminate.
  - injection H as <-. reflexivity.
  - injection H as <-. reflexivity.
  - destruct (Ascii.eqb a b); [| discriminate].
    apply IH in H. lia.
Qed.

Lemma behead_shorter chars s s' :
  Forall (fun c => c <> EmptyString) chars ->
  behead chars s = Some s' ->
  (String.length s' < String.length s)%nat.
Proof.
  induction 1 as [| c chars Hc _ IH]; simpl; [discriminate |].
  destruct (after c s) as [r |] eqn:E; [| exact IH].
  intros H. injection H as <-. apply after_length in E.
  destruct c; [congruence | simpl in E; lia].
Qed.

Lemma lstrip_chars_done chars n s :
  Forall (fun c => c <> EmptyString) chars ->
  (String.length s <= n)%nat ->
  behead chars (lstrip_chars n chars s) = None.
Proof.
  intros Hne. revert s.
  induction n as [| n IH]; intros s Hn; simpl.
  - destruct s; [| simpl in Hn; lia].
    clear Hn. induction Hne as [| c chars Hc _ IHc]; simpl; [reflexivity |].
    destruct c; [congruence | exact IHc].
  - destruct (behead chars s) as [s' |] eqn:E; [| exact E].
    apply IH. apply (behead_shorter _ _ _ Hne) in E. lia.
Qed.

Lemma length_of_list l :
  String.length (string_of_list_ascii l) = List.length l.
Proof. induction l; simpl; congruence. Qed.

Lemma rev_length s : String.length (rev s) = String.length s.
Proof.
  unfold rev. rewrite length_of_list, length_rev, <- length_of_list.
  now rewrite string_of_list_ascii_of_string.
Qed.

Lemma rev_involutive s : rev (rev s) = s.
Proof.
  unfold rev. rewrite list_ascii_of_string_of_list_ascii, List.rev_involutive.
  apply string_of_list_ascii_of_string.
Qed.

Lemma whitespace_nonempty : Forall (fun c => c <> EmptyString) whitespace.
Proof. repeat constructor; discriminate. Qed.

Lemma rev_whitespace_nonempty :
  Forall (fun c => c <> EmptyString) (map rev whitespace).
Proof. repeat constructor; discriminate. Qed.

Lemma lstrip_done s : behead whitespace (lstrip s) = None.
Proof. apply lstrip_chars_done; [apply whitespace_nonempty | lia]. Qed.

Lemma rstrip_done s : behead (map rev whitespace) (rev (rstrip s)) = None.
Proof.
  unfold rstrip. rewrite rev_involutive.
  apply lstrip_chars_done; [apply rev_whitespace_nonempty |].
  rewrite rev_length. lia.
Qed.

Example strip_padded_yes :
  lower (strip (utf8 [32; 9]%nat ++ "Y" ++ utf8 [194; 160; 13]%nat)) = "y".
Proof. reflexivity. Qed.

Example strip_inner_space : strip " n o " = "n o".
Proof. reflexivity. Qed.

End StrFacts.

Lemma paths_of_glad :
  glad_path = "external/glad" /\
  glad_header = "external/glad/include/glad/glad.h".
Proof. split; reflexivity. Qed.

Lemma pip_is_not_glad env : pip_cmd env <> glad_cmd env.
Proof. discriminate. Qed.

(** ** What it takes to get to each step

    [regenerates] and [generates] leave no run out: a run that attempts
    the import got past the prompt, and a run that starts the generator
    got to the generation step. *)
Lemma import_attempted env fs0 :
  In "glad" (imports (events (python env fs0))) -> regenerates env fs0.
Proof.
  case_env_eqn; cbn; intros H;
    solve [ contradiction
          | apply no_header; assumption
          | eapply affirmed; eassumption ].
Qed.

Lemma generator_started env fs0 :
  In (glad_cmd env) (spawned (events (python env fs0))) ->
  exists fs1, generates env fs0 fs1.
Proof.
  case_env_eqn; cbn; intros H;
    try (destruct H as [H | H]; [discriminate H |]);
    try contradiction;
    eexists;
    solve [ apply package_found;
              [first [apply no_header; assumption | eapply affirmed; eassumption]
              | assumption]
          | eapply package_installed;
              [first [apply no_header; assumption | eapply affirmed; eassumption]
              | eassumption | eassumption] ].
Qed.

(** ** The successful run *)

(** C1: in a run where the header external/glad/include/glad/glad.h does
    not exist, the import of the package succeeds and the generator exits
    with status 0, [main()] returns 0, the process exits with status 0,
    and the three paths external/glad/include/glad/glad.h,
    external/glad/include/KHR/khrplatform.h and external/glad/src/glad.c
    are printed. *)
Theorem C1_fresh_setup_succeeds env fs0 fs1 :
  os_path.exists_ "external/glad/include/glad/glad.h" fs0 = false ->
  import_module env "glad" = Imported ->
  spawn env (glad_cmd env) fs0 = (Returned 0, fs1) ->
  fst (main env (start fs0)) = Val (PyInt 0) /\
  exit_status (python env fs0) = 0 /\
  traceback (python env fs0) = None /\
  printed "   - external/glad/include/glad/glad.h" (events (python env fs0)) /\
  printed "   - external/glad/include/KHR/khrplatform.h" (events (python env fs0)) /\
  printed "   - external/glad/src/glad.c" (events (python env fs0)).
Proof.
  intros Hex Him Hgen.
  change "external/glad/include/glad/glad.h" with glad_header in Hex.
  exec. rewrite Hex. exec. rewrite Him. exec. rewrite Hgen. exec. exit_zero.
  repeat split; in_trace.
Qed.

Lemma C1_fresh_setup_succeeds_witness :
  (os_path.exists_ "external/glad/include/glad/glad.h" [] = false /\
   import_module fresh_env "glad" = Imported /\
   spawn fresh_env (glad_cmd fresh_env) [] = (Returned 0, header_fs)) /\
  (fst (main fresh_env (start [])) = Val (PyInt 0) /\
   exit_status (python fresh_env []) = 0 /\
   traceback (python fresh_env []) = None /\
   printed "   - external/glad/include/glad/glad.h" (events (python fresh_env [])) /\
   printed "   - external/glad/include/KHR/khrplatform.h" (events (python fresh_env [])) /\
   printed "   - external/glad/src/glad.c" (events (python fresh_env []))).
Proof.
  split.
  - repeat split; reflexivity.
  - apply (C1_fresh_setup_succeeds fresh_env [] header_fs); reflexivity.
Defined.

(** ** The declined run *)

(** C2, as the code has it: in a run where the header exists and the
    answer to the prompt, once surrounding whitespace is stripped and the
    rest is lower-cased, is anything but "y", [main()] returns [None], the
    process exits with status 0, no child process is started (neither the
    installer nor the generator), no import is attempted, and the file
    system is left as it was. *)
Theorem C2_declined_run_has_no_effect env fs0 s :
  os_path.exists_ glad_header fs0 = true ->
  stdin env = Line s ->
  Str.lower (Str.strip s) <> "y" ->
  fst (main env (start fs0)) = Val PyNone /\
  exit_status (python env fs0) = 0 /\
  traceback (python env fs0) = None /\
  spawned (events (python env fs0)) = [] /\
  imports (events (python env fs0)) = [] /\
  files (python env fs0) = fs0 /\
  printed "Keeping existing GLAD setup." (events (python env fs0)).
Proof.
  intros Hex Hin Hno. apply String.eqb_neq in Hno.
  exec. rewrite Hex. exec. rewrite Hin. exec. rewrite Hno. exec.
  repeat split; in_trace.
Qed.

Lemma C2_declined_run_has_no_effect_witness :
  (os_path.exists_ glad_header header_fs = true /\
   stdin (answering "no") = Line "no" /\
   Str.lower (Str.strip "no") <> "y") /\
  (fst (main (answering "no") (start header_fs)) = Val PyNone /\
   exit_status (python (answering "no") header_fs) = 0 /\
   traceback (python (answering "no") header_fs) = None /\
   spawned (events (python (answering "no") header_fs)) = [] /\
   imports (events (python (answering "no") header_fs)) = [] /\
   files (python (answering "no") header_fs) = header_fs /\
   printed "Keeping existing GLAD setup." (events (python (answering "no") header_fs))).
Proof.
  split.
  - repeat split. vm_compute. discriminate.
  - apply (C2_declined_run_has_no_effect (answering "no") header_fs "no");
      [reflexivity | reflexivity | vm_compute; discriminate].
Defined.

(** C2, as it is stated, fails: the answer "y " (a "y" and a space) is
    other than "y" in any case, yet it is taken as a yes, and both the
    installer and the generator are run. *)
Lemma C2_padded_yes_regenerates :
  os_path.exists_ glad_header header_fs = true /\
  stdin (answering "y ") = Line "y " /\
  Str.lower "y " <> "y" /\
  spawned (events (python (answering "y ") header_fs))
  = [ ["/usr/bin/python3"; "-m"; "pip"; "install"; "glad"];
      ["/usr/bin/python3"; "-m"; "glad"; "--generator"; "c"; "--spec"; "gl";
       "--out-path"; "external/glad"; "--api"; "gl=3.3"] ] /\
  ~ (exit_status (python (answering "y ") header_fs) = 0 /\
     spawned (events (python (answering "y ") header_fs)) = []).
Proof.
  split; [reflexivity | split; [reflexivity | split; [| split]]].
  - vm_compute. discriminate.
  - vm_compute. reflexivity.
  - intros [_ H]. vm_compute in H. discriminate H.
Qed.

(** ** Failures of the installer and of the generator *)

(** C3: in a run where the import of the package fails and the installer
    exits with a status other than 0, [main()] returns 1, the process
    exits with status 1, the hint with the manual install command is
    printed, and the installer is the only child process there was: the
    generator is never run. *)
Theorem C3_installer_failure env fs0 fs1 msg code :
  regenerates env fs0 ->
  import_module env "glad" = NotFound msg ->
  spawn env (pip_cmd env) fs0 = (Returned code, fs1) ->
  code <> 0 ->
  fst (main env (start fs0)) = Val (PyInt 1) /\
  exit_status (python env fs0) = 1 /\
  traceback (python env fs0) = None /\
  printed (Str.nl ++ "Please install manually:") (events (python env fs0)) /\
  printed "   pip install glad" (events (python env fs0)) /\
  spawned (events (python env fs0)) = [pip_cmd env] /\
  ~ In (glad_cmd env) (spawned (events (python env fs0))).
Proof.
  intros Hre Him Hpip Hcode.
  assert (Hother : ~ In (glad_cmd env) [pip_cmd env])
    by (intros [H | []]; discriminate H).
  use_regenerates Hre; rewrite Him; exec; rewrite Hpip; exec;
    exit_nonzero Hcode; repeat split; solve [in_trace | exact Hother].
Qed.

Lemma C3_installer_failure_witness :
  (regenerates (failing_env 2 0) [] /\
   import_module (failing_env 2 0) "glad" = NotFound "No module named 'glad'" /\
   spawn (failing_env 2 0) (pip_cmd (failing_env 2 0)) [] = (Returned 2, []) /\
   2 <> 0) /\
  (fst (main (failing_env 2 0) (start [])) = Val (PyInt 1) /\
   exit_status (python (failing_env 2 0) []) = 1 /\
   traceback (python (failing_env 2 0) []) = None /\
   printed (Str.nl ++ "Please install manually:") (events (python (failing_env 2 0) [])) /\
   printed "   pip install glad" (events (python (failing_env 2 0) [])) /\
   spawned (events (python (failing_env 2 0) [])) = [pip_cmd (failing_env 2 0)] /\
   ~ In (glad_cmd (failing_env 2 0)) (spawned (events (python (failing_env 2 0) [])))).
Proof.
  split.
  - repeat split; [apply no_header; reflexivity | lia].
  - apply (C3_installer_failure (failing_env 2 0) [] [] "No module named 'glad'" 2);
      [apply no_header; reflexivity | reflexivity | reflexivity | lia].
Defined.

(** C4: in a run that gets to the generation step, the package being
    importable or the installer having exited with 0, where the generator
    exits with a status other than 0, [main()] returns 1, the process
    exits with status 1, and the hint to download manually is printed. *)
Theorem C4_generator_failure env fs0 fs1 fs2 code :
  generates env fs0 fs1 ->
  spawn env (glad_cmd env) fs1 = (Returned code, fs2) ->
  code <> 0 ->
  fst (main env (start fs0)) = Val (PyInt 1) /\
  exit_status (python env fs0) = 1 /\
  traceback (python env fs0) = None /\
  printed (generate_failed_msg env (CalledProcessError code (glad_cmd env)))
    (events (python env fs0)) /\
  printed "Alternative: Download manually from https://glad.dav1d.de/"
    (events (python env fs0)).
Proof.
  intros Hgo Hgen Hcode.
  use_generates Hgo; rewrite Hgen; exec; exit_nonzero Hcode;
    repeat split; in_trace.
Qed.

Lemma C4_generator_failure_witness :
  (generates (failing_env 0 1) [] [] /\
   spawn (failing_env 0 1) (glad_cmd (failing_env 0 1)) [] = (Returned 1, []) /\
   1 <> 0) /\
  (fst (main (failing_env 0 1) (start [])) = Val (PyInt 1) /\
   exit_status (python (failing_env 0 1) []) = 1 /\
   traceback (python (failing_env 0 1) []) = None /\
   printed (generate_failed_msg (failing_env 0 1)
              (CalledProcessError 1 (glad_cmd (failing_env 0 1))))
     (events (python (failing_env 0 1) [])) /\
   printed "Alternative: Download manually from https://glad.dav1d.de/"
     (events (python (failing_env 0 1) []))).
Proof.
  assert (Hgo : generates (failing_env 0 1) [] []).
  { apply (package_installed _ _ "No module named 'glad'" []);
      [apply no_header; reflexivity | reflexivity | reflexivity]. }
  split.
  - repeat split; [exact Hgo | lia].
  - apply (C4_generator_failure (failing_env 0 1) [] [] [] 1 Hgo);
      [reflexivity | lia].
Defined.

(** ** The entry block *)


Lemma cancelled_is_not_generate_failed env e :
  cancelled_msg <> generate_failed_msg env e.
Proof. discriminate. Qed.

Lemma unexpected_is_not_cancelled env e :
  unexpected_msg env e <> cancelled_msg.
Proof. discriminate. Qed.

(** C5: in a run where a user interrupt is delivered while the script is
    blocked on the prompt, on the installer or on the generator, the
    process exits with status 1 and the last thing it prints is the
    cancellation message; no generation-failure message is printed, and
    the two messages are different texts. *)
Theorem C5_interrupt_is_cancellation env fs0 :
  interrupted env fs0 ->
  exit_status (python env fs0) = 1 /\
  final (events (python env fs0)) = Some (Print cancelled_msg) /\
  traceback (python env fs0) = None /\
  (forall e, ~ printed (generate_failed_msg env e) (events (python env fs0))) /\
  (forall e, cancelled_msg <> generate_failed_msg env e).
Proof.
  intros [Hex Hin | msg fs1 Hre Him Hpip | fs1 fs2 Hgo Hgen].
  - exec. rewrite Hex. exec. rewrite Hin. exec.
    repeat split; try not_in_trace; discriminate.
  - use_regenerates Hre; rewrite Him; exec; rewrite Hpip; exec;
      (repeat split; try not_in_trace; discriminate).
  - use_generates Hgo; rewrite Hgen; exec;
      (repeat split; try not_in_trace; discriminate).
Qed.

Lemma C5_interrupt_is_cancellation_witness :
  interrupted (mk_env (InputFault Interrupt) Imported (child_exits 0)) header_fs /\
  (exit_status
     (python (mk_env (InputFault Interrupt) Imported (child_exits 0)) header_fs) = 1 /\
   final (events
            (python (mk_env (InputFault Interrupt) Imported (child_exits 0)) header_fs))
   = Some (Print cancelled_msg) /\
   traceback
     (python (mk_env (InputFault Interrupt) Imported (child_exits 0)) header_fs) = None /\
   (forall e,
      ~ printed
          (generate_failed_msg (mk_env (InputFault Interrupt) Imported (child_exits 0)) e)
          (events
             (python (mk_env (InputFault Interrupt) Imported (child_exits 0)) header_fs))) /\
   (forall e,
      cancelled_msg
      <> generate_failed_msg (mk_env (InputFault Interrupt) Imported (child_exits 0)) e)).
Proof.
  assert (H : interrupted (mk_env (InputFault Interrupt) Imported (child_exits 0))
                header_fs)
    by (apply at_prompt; reflexivity).
  split; [exact H |].
  apply (C5_interrupt_is_cancellation _ header_fs H).
Defined.

(** The interrupt may as well come during the installer or the generator. *)
Example interrupted_installer :
  interrupted (mk_env EndOfFile no_module (children (CallFault Interrupt) (Returned 0))) [].
Proof. apply (at_installer _ _ "No module named 'glad'" []); [apply no_header | |]; reflexivity. Qed.

Example interrupted_generator :
  interrupted (mk_env EndOfFile no_module (children (Returned 0) (CallFault Interrupt))) [].
Proof.
  apply (at_generator _ _ [] []); [| reflexivity].
  apply (package_installed _ _ "No module named 'glad'" []);
    [apply no_header | |]; reflexivity.
Qed.




(** C10: when the header exists and standard input is at its end at the
    prompt, [input()] raises [EOFError]: [main()] does not return, the run
    is not taken as declined, and the entry block ends the process with
    status 1 after the unexpected-error line. *)
Theorem C10_end_of_input_at_prompt env fs0 :
  os_path.exists_ glad_header fs0 = true ->
  stdin env = EndOfFile ->
  (exists st, main env (start fs0) = (Exc EOFError, st)) /\
  exit_status (python env fs0) = 1 /\
  exit_status (python env fs0) <> 0 /\
  final (events (python env fs0))
  = Some (Print (Str.nl ++ "❌ Unexpected error: EOF when reading a line")) /\
  ~ printed "Keeping existing GLAD setup." (events (python env fs0)) /\
  traceback (python env fs0) = None /\
  spawned (events (python env fs0)) = [].
Proof.
  intros Hex Hin.
  exec. rewrite Hex. exec. rewrite Hin. exec.
  repeat split; try discriminate.
  - eexists. reflexivity.
  - unfold printed. cbn. intros H.
    repeat (destruct H as [H | H]; [discriminate H |]). exact H.
Qed.

Lemma C10_end_of_input_at_prompt_witness :
  (os_path.exists_ glad_header header_fs = true /\
   stdin fresh_env = EndOfFile) /\
  ((exists st, main fresh_env (start header_fs) = (Exc EOFError, st)) /\
   exit_status (python fresh_env header_fs) = 1 /\
   exit_status (python fresh_env header_fs) <> 0 /\
   final (events (python fresh_env header_fs))
   = Some (Print (Str.nl ++ "❌ Unexpected error: EOF when reading a line")) /\
   ~ printed "Keeping existing GLAD setup." (events (python fresh_env header_fs)) /\
   traceback (python fresh_env header_fs) = None /\
   spawned (events (python fresh_env header_fs)) = []).
Proof.
  split; [split; reflexivity |].
  apply (C10_end_of_input_at_prompt fresh_env header_fs); reflexivity.
Defined.

(** ** The affirmed run against the fresh run *)

Lemma affirmed_run_matches_fresh_run env fs_h fs_n s :
  os_path.exists_ glad_header fs_h = true ->
  os_path.exists_ glad_header fs_n = false ->
  stdin env = Line s ->
  Str.lower (Str.strip s) = "y" ->
  (forall argv fa fb, fst (spawn env argv fa) = fst (spawn env argv fb)) ->
  fst (main env (start fs_h)) = fst (main env (start fs_n)) /\
  exit_status (python env fs_h) = exit_status (python env fs_n) /\
  traceback (python env fs_h) = traceback (python env fs_n) /\
  exists rest,
    events (python env fs_n) = (banner ++ Import "glad" :: rest)%list /\
    events (python env fs_h) = (banner ++ asked ++ Import "glad" :: rest)%list.
Proof.
  intros Hh Hn Hin Hy Hagree.
  exec. rewrite Hh, Hn. exec. rewrite Hin. exec. rewrite Hy.
  change (String.eqb "y" "y") with true.
  case_both Hagree.
  all: repeat split; eexists; split; reflexivity.
Qed.

(** C6: in a run where the header exists and the answer to the prompt is
    "y" or "Y", what follows the prompt (the import, the installer, the
    generator, what is printed, the value [main()] returns and the exit
    status) is what it is in a run where the header does not exist, the
    collaborators answering alike in both. *)
Theorem C6_affirmed_run_as_fresh_run env fs_h fs_n s :
  os_path.exists_ glad_header fs_h = true ->
  os_path.exists_ glad_header fs_n = false ->
  stdin env = Line s ->
  s = "y" \/ s = "Y" ->
  (forall argv fa fb, fst (spawn env argv fa) = fst (spawn env argv fb)) ->
  fst (main env (start fs_h)) = fst (main env (start fs_n)) /\
  exit_status (python env fs_h) = exit_status (python env fs_n) /\
  traceback (python env fs_h) = traceback (python env fs_n) /\
  exists rest,
    events (python env fs_n) = (banner ++ Import "glad" :: rest)%list /\
    events (python env fs_h) = (banner ++ asked ++ Import "glad" :: rest)%list.
Proof.
  intros Hh Hn Hin Hs Hagree.
  apply (affirmed_run_matches_fresh_run env fs_h fs_n s); try assumption.
  destruct Hs as [-> | ->]; reflexivity.
Qed.

Lemma C6_affirmed_run_as_fresh_run_witness :
  (os_path.exists_ glad_header header_fs = true /\
   os_path.exists_ glad_header [] = false /\
   stdin (answering "Y") = Line "Y" /\
   ("Y" = "y" \/ "Y" = "Y") /\
   (forall argv fa fb,
      fst (spawn (answering "Y") argv fa) = fst (spawn (answering "Y") argv fb))) /\
  (fst (main (answering "Y") (start header_fs)) = fst (main (answering "Y") (start [])) /\
   exit_status (python (answering "Y") header_fs)
   = exit_status (python (answering "Y") []) /\
   traceback (python (answering "Y") header_fs) = traceback (python (answering "Y") []) /\
   exists rest,
     events (python (answering "Y") []) = (banner ++ Import "glad" :: rest)%list /\
     events (python (answering "Y") header_fs)
     = (banner ++ asked ++ Import "glad" :: rest)%list).
Proof.
  split.
  - repeat split. right; reflexivity.
  - apply (C6_affirmed_run_as_fresh_run (answering "Y") header_fs [] "Y");
      [reflexivity | reflexivity | reflexivity | right; reflexivity | reflexivity].
Defined.

(** ** The generator command *)

(** C7: in a run that gets to the generation step, the generator is the
    last child process started, it is started once, and its command is
    the interpreter with -m glad --generator c --spec gl
    --out-path external/glad --api gl=3.3; an exit status of 0 is taken as
    success ([main()] returns 0) and any other as failure ([main()]
    returns 1 after the generation-failure message). *)
Theorem C7_generator_contract env fs0 fs1 :
  generates env fs0 fs1 ->
  (exists before,
     spawned (events (python env fs0))
     = (before ++ [[sys_executable env; "-m"; "glad"; "--generator"; "c";
                    "--spec"; "gl"; "--out-path"; "external/glad";
                    "--api"; "gl=3.3"]])%list /\
     (before = [] \/ before = [pip_cmd env])) /\
  (forall code fs2,
     spawn env (glad_cmd env) fs1 = (Returned code, fs2) ->
     (code = 0 ->
      fst (main env (start fs0)) = Val (PyInt 0) /\
      exit_status (python env fs0) = 0 /\
      printed "✅ GLAD generated successfully!" (events (python env fs0))) /\
     (code <> 0 ->
      fst (main env (start fs0)) = Val (PyInt 1) /\
      exit_status (python env fs0) = 1 /\
      printed (generate_failed_msg env (CalledProcessError code (glad_cmd env)))
        (events (python env fs0)))).
Proof.
  intros Hgo. split.
  - use_generates Hgo; case_env;
      solve [ exists []; split; [reflexivity | left; reflexivity]
            | exists [pip_cmd env]; split; [reflexivity | right; reflexivity] ].
  - intros code fs2 Hgen. split.
    + intros ->. use_generates Hgo; rewrite Hgen; exec; exit_zero;
        repeat split; in_trace.
    + intros Hcode. use_generates Hgo; rewrite Hgen; exec; exit_nonzero Hcode;
        repeat split; in_trace.
Qed.

Lemma C7_generator_contract_witness :
  generates (failing_env 0 3) [] [] /\
  ((exists before,
      spawned (events (python (failing_env 0 3) []))
      = (before ++ [[sys_executable (failing_env 0 3); "-m"; "glad"; "--generator"; "c";
                     "--spec"; "gl"; "--out-path"; "external/glad";
                     "--api"; "gl=3.3"]])%list /\
      (before = [] \/ before = [pip_cmd (failing_env 0 3)])) /\
   (forall code fs2,
      spawn (failing_env 0 3) (glad_cmd (failing_env 0 3)) [] = (Returned code, fs2) ->
      (code = 0 ->
       fst (main (failing_env 0 3) (start [])) = Val (PyInt 0) /\
       exit_status (python (failing_env 0 3) []) = 0 /\
       printed "✅ GLAD generated successfully!" (events (python (failing_env 0 3) []))) /\
      (code <> 0 ->
       fst (main (failing_env 0 3) (start [])) = Val (PyInt 1) /\
       exit_status (python (failing_env 0 3) []) = 1 /\
       printed (generate_failed_msg (failing_env 0 3)
                  (CalledProcessError code (glad_cmd (failing_env 0 3))))
         (events (python (failing_env 0 3) []))))).
Proof.
  assert (Hgo : generates (failing_env 0 3) [] []).
  { apply (package_installed _ _ "No module named 'glad'" []);
      [apply no_header; reflexivity | reflexivity | reflexivity]. }
  split; [exact Hgo |].
  apply (C7_generator_contract (failing_env 0 3) [] [] Hgo).
Defined.

(** ** Two declined runs in succession *)

(** C8: two runs in succession, the header existing at the start and the
    answer being a no both times ("no", or any answer not taken as a yes):
    each run exits with status 0, starts no child process, attempts no
    import and leaves the file system as it found it, and the two runs
    do the same things in the same order. *)
Theorem C8_declined_twice env1 env2 fs0 s1 s2 :
  os_path.exists_ glad_header fs0 = true ->
  stdin env1 = Line s1 ->
  stdin env2 = Line s2 ->
  Str.lower (Str.strip s1) <> "y" ->
  Str.lower (Str.strip s2) <> "y" ->
  exit_status (fst (python_twice env1 env2 fs0)) = 0 /\
  exit_status (snd (python_twice env1 env2 fs0)) = 0 /\
  events (fst (python_twice env1 env2 fs0)) = events (snd (python_twice env1 env2 fs0)) /\
  spawned (events (fst (python_twice env1 env2 fs0))) = [] /\
  spawned (events (snd (python_twice env1 env2 fs0))) = [] /\
  imports (events (fst (python_twice env1 env2 fs0))) = [] /\
  imports (events (snd (python_twice env1 env2 fs0))) = [] /\
  files (fst (python_twice env1 env2 fs0)) = fs0 /\
  files (snd (python_twice env1 env2 fs0)) = fs0.
Proof.
  intros Hex Hin1 Hin2 Hno1 Hno2.
  apply String.eqb_neq in Hno1, Hno2.
  exec. rewrite Hex. exec. rewrite Hin1. exec. rewrite Hno1. exec.
  rewrite Hex. exec. rewrite Hin2. exec. rewrite Hno2. exec.
  repeat split.
Qed.

Lemma C8_declined_twice_witness :
  (os_path.exists_ glad_header header_fs = true /\
   stdin (answering "no") = Line "no" /\
   Str.lower (Str.strip "no") <> "y") /\
  (exit_status (fst (python_twice (answering "no") (answering "no") header_fs)) = 0 /\
   exit_status (snd (python_twice (answering "no") (answering "no") header_fs)) = 0 /\
   events (fst (python_twice (answering "no") (answering "no") header_fs))
   = events (snd (python_twice (answering "no") (answering "no") header_fs)) /\
   spawned (events (fst (python_twice (answering "no") (answering "no") header_fs))) = [] /\
   spawned (events (snd (python_twice (answering "no") (answering "no") header_fs))) = [] /\
   imports (events (fst (python_twice (answering "no") (answering "no") header_fs))) = [] /\
   imports (events (snd (python_twice (answering "no") (answering "no") header_fs))) = [] /\
   files (fst (python_twice (answering "no") (answering "no") header_fs)) = header_fs /\
   files (snd (python_twice (answering "no") (answering "no") header_fs)) = header_fs).
Proof.
  split.
  - repeat split. vm_compute. discriminate.
  - apply (C8_declined_twice (answering "no") (answering "no") header_fs "no" "no");
      solve [reflexivity | vm_compute; discriminate].
Defined.

(** ** Every run *)



(** X3: a run starts at most the installer and then the generator, each
    at most once and in that order; it starts the installer only when the
    import of the package failed with an [ImportError]; and it attempts at
    most one import, that of glad. *)
Theorem children_and_imports env fs0 :
  (spawned (events (python env fs0)) = [] \/
   spawned (events (python env fs0)) = [glad_cmd env] \/
   spawned (events (python env fs0)) = [pip_cmd env] \/
   spawned (events (python env fs0)) = [pip_cmd env; glad_cmd env]) /\
  (In (pip_cmd env) (spawned (events (python env fs0))) ->
   exists msg, import_module env "glad" = NotFound msg) /\
  (imports (events (python env fs0)) = [] \/
   imports (events (python env fs0)) = ["glad"]).
Proof.
  case_env_eqn.
  all: cbn [spawned imports]; repeat split.
  all: try solve [auto 6].
  all: intros H; cbn in H.
  all: solve [ contradiction
             | destruct H as [H | []]; discriminate H
             | eexists; reflexivity ].
Qed.


(** ** Failures the script does not handle itself *)

(** X5: when the package is missing and the installer cannot be started
    (an error other than a non-zero exit status), [main()] does not print
    the hint to install manually and does not start the generator: the
    error leaves [main()], and the entry block ends the process with
    status 1 after the unexpected-error line. *)
Theorem installer_cannot_start env fs0 fs1 msg reason :
  regenerates env fs0 ->
  import_module env "glad" = NotFound msg ->
  spawn env (pip_cmd env) fs0 = (CallFault (Error reason), fs1) ->
  (exists st, main env (start fs0) = (Exc (OtherException reason), st)) /\
  exit_status (python env fs0) = 1 /\
  final (events (python env fs0))
  = Some (Print (Str.nl ++ "❌ Unexpected error: " ++ reason)) /\
  ~ printed "   pip install glad" (events (python env fs0)) /\
  spawned (events (python env fs0)) = [pip_cmd env].
Proof.
  intros Hre Him Hpip.
  use_regenerates Hre; rewrite Him; exec; rewrite Hpip; exec;
    (split; [eexists; reflexivity |]);
    repeat split; no_such_print.
Qed.

Lemma installer_cannot_start_witness :
  (regenerates no_installer_env [] /\
   import_module no_installer_env "glad" = NotFound "No module named 'glad'" /\
   spawn no_installer_env (pip_cmd no_installer_env) []
   = (CallFault (Error "[Errno 2] No such file or directory"), [])) /\
  ((exists st,
      main no_installer_env (start [])
      = (Exc (OtherException "[Errno 2] No such file or directory"), st)) /\
   exit_status (python no_installer_env []) = 1 /\
   final (events (python no_installer_env []))
   = Some (Print (Str.nl ++ "❌ Unexpected error: "
                    ++ "[Errno 2] No such file or directory")) /\
   ~ printed "   pip install glad" (events (python no_installer_env [])) /\
   spawned (events (python no_installer_env [])) = [pip_cmd no_installer_env]).
Proof.
  split.
  - repeat split. apply no_header. reflexivity.
  - apply (installer_cannot_start no_installer_env [] []
             "No module named 'glad'" "[Errno 2] No such file or directory");
      [apply no_header; reflexivity | reflexivity | reflexivity].
Defined.

(** X6: when the run gets to the generation step and the generator
    cannot be started (an error other than a non-zero exit status),
    [main()] prints neither the generation-failure message nor the hint
    to download manually: the error leaves [main()], and the entry block
    ends the process with status 1 after the unexpected-error line. *)
Theorem generator_cannot_start env fs0 fs1 fs2 reason :
  generates env fs0 fs1 ->
  spawn env (glad_cmd env) fs1 = (CallFault (Error reason), fs2) ->
  (exists st, main env (start fs0) = (Exc (OtherException reason), st)) /\
  exit_status (python env fs0) = 1 /\
  final (events (python env fs0))
  = Some (Print (Str.nl ++ "❌ Unexpected error: " ++ reason)) /\
  ~ printed "Alternative: Download manually from https://glad.dav1d.de/"
      (events (python env fs0)) /\
  (forall e, ~ printed (generate_failed_msg env e) (events (python env fs0))).
Proof.
  intros Hgo Hgen.
  use_generates Hgo; rewrite Hgen; exec;
    (split; [eexists; reflexivity |]);
    repeat split; solve [no_such_print | not_in_trace].
Qed.

Lemma generator_cannot_start_witness :
  (generates no_generator_env [] [] /\
   spawn no_generator_env (glad_cmd no_generator_env) []
   = (CallFault (Error "[Errno 2] No such file or directory"), [])) /\
  ((exists st,
      main no_generator_env (start [])
      = (Exc (OtherException "[Errno 2] No such file or directory"), st)) /\
   exit_status (python no_generator_env []) = 1 /\
   final (events (python no_generator_env []))
   = Some (Print (Str.nl ++ "❌ Unexpected error: "
                    ++ "[Errno 2] No such file or directory")) /\
   ~ printed "Alternative: Download manually from https://glad.dav1d.de/"
       (events (python no_generator_env [])) /\
   (forall e,
      ~ printed (generate_failed_msg no_generator_env e)
          (events (python no_generator_env [])))).
Proof.
  assert (Hgo : generates no_generator_env [] [])
    by (apply package_found; [apply no_header |]; reflexivity).
  split.
  - split; [exact Hgo | reflexivity].
  - apply (generator_cannot_start no_generator_env [] [] []
             "[Errno 2] No such file or directory" Hgo).
    reflexivity.
Defined.



(** ** The prompt *)


Lemma lower_ascii_y c :
  Str.lower_ascii c = "y"%char <-> c = "y"%char \/ c = "Y"%char.
Proof.
  destruct c as [[] [] [] [] [] [] [] []]; vm_compute;
    split; intros H;
    solve [ discriminate H
          | destruct H as [H | H]; discriminate H
          | left; reflexivity
          | right; reflexivity
          | reflexivity ].
Qed.

Lemma lower_y t : Str.lower t = "y" <-> t = "y" \/ t = "Y".
Proof.
  destruct t as [| c [| d t]]; cbn.
  - split; [discriminate | intros [H | H]; discriminate H].
  - split.
    + intros H. injection H as H. apply lower_ascii_y in H.
      destruct H as [-> | ->]; [left | right]; reflexivity.
    + intros [H | H]; injection H as ->; reflexivity.
  - split; [discriminate | intros [H | H]; discriminate H].
Qed.

(** X9: with the header there, the run goes on to the import exactly
    when the answer, once surrounding whitespace is stripped, is "y" or
    "Y"; with any other answer it stops at the prompt. *)
Theorem yes_is_y_or_Y env fs0 s :
  os_path.exists_ glad_header fs0 = true ->
  stdin env = Line s ->
  (In "glad" (imports (events (python env fs0))) <->
   Str.strip s = "y" \/ Str.strip s = "Y") /\
  (printed "Keeping existing GLAD setup." (events (python env fs0)) <->
   ~ (Str.strip s = "y" \/ Str.strip s = "Y")).
Proof.
  intros Hex Hin. rewrite <- lower_y.
  exec. rewrite Hex. exec. rewrite Hin. exec.
  destruct (String.eqb_spec (Str.lower (Str.strip s)) "y") as [Hy | Hn].
  - case_env; (split; split; intros H;
      solve [ exact Hy | cbn; auto | contradiction
            | exfalso; revert H; no_such_print ]).
  - exec. split; split; intros H; cbn in H;
      solve [ contradiction | exact Hn | in_trace ].
Qed.

Lemma yes_is_y_or_Y_witness :
  (os_path.exists_ glad_header header_fs = true /\
   stdin (answering (" Y" ++ Str.nl)) = Line (" Y" ++ Str.nl)) /\
  ((In "glad" (imports (events (python (answering (" Y" ++ Str.nl)) header_fs))) <->
    Str.strip (" Y" ++ Str.nl) = "y" \/ Str.strip (" Y" ++ Str.nl) = "Y") /\
   (printed "Keeping existing GLAD setup."
      (events (python (answering (" Y" ++ Str.nl)) header_fs)) <->
    ~ (Str.strip (" Y" ++ Str.nl) = "y" \/ Str.strip (" Y" ++ Str.nl) = "Y"))).
Proof.
  split.
  - split; reflexivity.
  - apply (yes_is_y_or_Y (answering (" Y" ++ Str.nl)) header_fs (" Y" ++ Str.nl));
      reflexivity.
Defined.

(** ** The hints *)

(** X10: the hint to install manually is printed in exactly the runs
    that got past the prompt, found the package missing, and saw the
    installer exit with a status other than 0. *)
Theorem install_hint_iff_installer_failed env fs0 :
  printed "   pip install glad" (events (python env fs0)) <->
  exists msg code fs1,
    regenerates env fs0 /\
    import_module env "glad" = NotFound msg /\
    spawn env (pip_cmd env) fs0 = (Returned code, fs1) /\
    code <> 0.
Proof.
  split.
  - case_env_eqn; intros H;
      first [ solve [ do 3 eexists; repeat split;
                      first [regenerating | reflexivity | assumption] ]
            | exfalso; revert H; no_such_print ].
  - intros (msg & code & fs1 & Hre & Him & Hpip & Hcode).
    use_regenerates Hre; rewrite Him; exec; rewrite Hpip; exec;
      exit_nonzero Hcode; in_trace.
Qed.

(** X11: the hint to download manually is printed in exactly the runs
    that got to the generation step and saw the generator exit with a
    status other than 0. *)
Theorem download_hint_iff_generator_failed env fs0 :
  printed "Alternative: Download manually from https://glad.dav1d.de/"
    (events (python env fs0)) <->
  exists fs1 code fs2,
    generates env fs0 fs1 /\
    spawn env (glad_cmd env) fs1 = (Returned code, fs2) /\
    code <> 0.
Proof.
  split.
  - case_env_eqn; intros H;
      first [ solve [ do 3 eexists; split; [generating |];
                      split; [eassumption | assumption] ]
            | exfalso; revert H; no_such_print ].
  - intros (fs1 & code & fs2 & Hgo & Hgen & Hcode).
    use_generates Hgo; rewrite Hgen; exec; exit_nonzero Hcode; in_trace.
Qed.

(** ** After the generator *)

(** X12: once the generator has exited with 0, the script reports the
    three paths and the success, and leaves the file system as the
    generator left it: it does not look whether the files are there. *)
Theorem success_is_not_verified env fs0 fs1 fs2 :
  generates env fs0 fs1 ->
  spawn env (glad_cmd env) fs1 = (Returned 0, fs2) ->
  fst (main env (start fs0)) = Val (PyInt 0) /\
  printed "   - external/glad/include/glad/glad.h" (events (python env fs0)) /\
  printed "   - external/glad/include/KHR/khrplatform.h" (events (python env fs0)) /\
  printed "   - external/glad/src/glad.c" (events (python env fs0)) /\
  final (events (python env fs0))
  = Some (Print "✅ Setup complete! You can now build the project.") /\
  files (python env fs0) = fs2.
Proof.
  intros Hgo Hgen.
  use_generates Hgo; rewrite Hgen; exec; exit_zero; repeat split; in_trace.
Qed.

Lemma success_is_not_verified_witness :
  (generates (failing_env 0 0) [] [] /\
   spawn (failing_env 0 0) (glad_cmd (failing_env 0 0)) [] = (Returned 0, [])) /\
  (fst (main (failing_env 0 0) (start [])) = Val (PyInt 0) /\
   printed "   - external/glad/include/glad/glad.h"
     (events (python (failing_env 0 0) [])) /\
   printed "   - external/glad/include/KHR/khrplatform.h"
     (events (python (failing_env 0 0) [])) /\
   printed "   - external/glad/src/glad.c" (events (python (failing_env 0 0) [])) /\
   final (events (python (failing_env 0 0) []))
   = Some (Print "✅ Setup complete! You can now build the project.") /\
   files (python (failing_env 0 0) []) = []).
Proof.
  assert (Hgo : generates (failing_env 0 0) [] []).
  { apply (package_installed _ _ "No module named 'glad'" []);
      [apply no_header; reflexivity | reflexivity | reflexivity]. }
  split.
  - split; [exact Hgo | reflexivity].
  - apply (success_is_not_verified (failing_env 0 0) [] [] [] Hgo). reflexivity.
Defined.

(** The run above ends in success with no header in the file system. *)
Example success_without_header :
  exit_status (python (failing_env 0 0) []) = 0 /\
  os_path.exists_ glad_header (files (python (failing_env 0 0) [])) = false.
Proof. split; vm_compute; reflexivity. Qed.

(** X13: a run right after a successful one whose generator left the
    header asks before it regenerates, once; when the user declines, it
    starts no child process and keeps what the first run left. *)
Theorem second_run_asks_first env1 env2 fs0 fs1 fs2 s :
  generates env1 fs0 fs1 ->
  spawn env1 (glad_cmd env1) fs1 = (Returned 0, fs2) ->
  os_path.exists_ glad_header fs2 = true ->
  stdin env2 = Line s ->
  Str.lower (Str.strip s) <> "y" ->
  exit_status (fst (python_twice env1 env2 fs0)) = 0 /\
  files (fst (python_twice env1 env2 fs0)) = fs2 /\
  prompts (events (snd (python_twice env1 env2 fs0))) = [prompt_text] /\
  exit_status (snd (python_twice env1 env2 fs0)) = 0 /\
  spawned (events (snd (python_twice env1 env2 fs0))) = [] /\
  files (snd (python_twice env1 env2 fs0)) = fs2.
Proof.
  intros Hgo Hgen Hex2 Hin2 Hno2. apply String.eqb_neq in Hno2.
  use_generates Hgo; rewrite Hgen; exec; exit_zero;
    rewrite Hex2; exec; rewrite Hin2; exec; rewrite Hno2; exec;
    repeat split.
Qed.

Lemma second_run_asks_first_witness :
  (generates fresh_env [] [] /\
   spawn fresh_env (glad_cmd fresh_env) [] = (Returned 0, header_fs) /\
   os_path.exists_ glad_header header_fs = true /\
   stdin (answering "n") = Line "n" /\
   Str.lower (Str.strip "n") <> "y") /\
  (exit_status (fst (python_twice fresh_env (answering "n") [])) = 0 /\
   files (fst (python_twice fresh_env (answering "n") [])) = header_fs /\
   prompts (events (snd (python_twice fresh_env (answering "n") []))) = [prompt_text] /\
   exit_status (snd (python_twice fresh_env (answering "n") [])) = 0 /\
   spawned (events (snd (python_twice fresh_env (answering "n") []))) = [] /\
   files (snd (python_twice fresh_env (answering "n") [])) = header_fs).
Proof.
  assert (Hgo : generates fresh_env [] [])
    by (apply package_found; [apply no_header |]; reflexivity).
  split.
  - repeat split; [exact Hgo | vm_compute; discriminate].
  - apply (second_run_asks_first fresh_env (answering "n") [] [] header_fs "n" Hgo);
      solve [reflexivity | vm_compute; discriminate].
Defined.

(** ** What [main()] returns *)

(** X14: [main()] returns [None] exactly when the user declined at the
    prompt and 0 exactly when the generator exited with 0; the only other
    value it returns is 1. *)
Theorem what_main_returns env fs0 :
  (fst (main env (start fs0)) = Val PyNone <-> declined env fs0) /\
  (fst (main env (start fs0)) = Val (PyInt 0) <->
   exists fs1 fs2,
     generates env fs0 fs1 /\ spawn env (glad_cmd env) fs1 = (Returned 0, fs2)) /\
  (forall v,
     fst (main env (start fs0)) = Val v ->
     v = PyNone \/ v = PyInt 0 \/ v = PyInt 1).
Proof.
  split; [| split].
  - split.
    + case_env_eqn; intros H; try discriminate H.
      all: eapply answered_no; eassumption.
    + intros [s Hex Hin Hno]. apply String.eqb_neq in Hno.
      exec. rewrite Hex. exec. rewrite Hin. exec. rewrite Hno. reflexivity.
  - split.
    + case_env_eqn; intros H; try discriminate H.
      all: do 2 eexists; split; [generating | eassumption].
    + intros (fs1 & fs2 & Hgo & Hgen).
      use_generates Hgo; rewrite Hgen; exec; exit_zero; reflexivity.
  - case_env; intros v H; first [discriminate H | injection H as <-]; auto.
Qed.
